(** * Neural sigil generator: a shallow embedding of [generate_sigils.py]

    The generator derives 121 fixed-size records from their index and
    serialises them, behind an 8-byte header, into the EEPROM image.
    Python integers are modelled as [Z], [bytes] as lists of [Z] (one
    entry per byte), [str] as [string], the two constant dictionaries as
    [gmap]s keyed by the tier, and exceptions as an error monad. *)

From Stdlib Require Import ZArith QArith Qround Lia Ascii String.
From stdpp Require Import base option list gmap strings.

Local Open Scope Z_scope.

(** ** Exceptions *)

Inductive exn : Set :=
  | KeyError
  | StructError
  | UnicodeEncodeError.

Inductive result (A : Type) : Type :=
  | Ok (a : A)
  | Raise (e : exn).

Arguments Ok {A} a.
Arguments Raise {A} e.

#[global] Instance result_ret : MRet result := fun A a => Ok a.
#[global] Instance result_bind : MBind result := fun A B f m =>
  match m with
  | Ok a => f a
  | Raise e => Raise e
  end.

Definition is_Ok {A} (r : result A) : Prop := exists a, r = Ok a.

(** A dictionary subscript [d[k]]: a missing key raises [KeyError]. *)
Definition subscript {V} (d : gmap Z V) (k : Z) : result V :=
  match d !! k with
  | Some v => Ok v
  | None => Raise KeyError
  end.

Abbreviation bytes := (list Z).

(** ** Constant tables *)

Definition SOLFEGGIO : gmap Z Z :=
  list_to_map
    [ (1, 174); (2, 285); (3, 396); (4, 417); (5, 528);
      (6, 639); (7, 741); (8, 852); (9, 963) ].

(** Phase durations in seconds.  Every literal of the source is an
    integer or a multiple of one half, so its value as a Python number
    is the rational written here. *)
Definition BREATH_PATTERNS : gmap Z (Q * Q * Q * Q) :=
  list_to_map
    [ (1, (4, 2, 4, 2)%Q);
      (2, (3.5, 1.5, 3.5, 1.5)%Q);
      (3, (3, 1, 3, 1)%Q);
      (4, (2.5, 1.5, 2.5, 1.5)%Q);
      (5, (2, 2, 2, 2)%Q);
      (6, (2.5, 1, 3.5, 1)%Q);
      (7, (1.5, 0.5, 2.5, 0.5)%Q);
      (8, (2, 1, 2, 1)%Q);
      (9, (1, 3, 1, 3)%Q) ].

Definition FLAG_ACTIVE : Z := 0x01.
Definition FLAG_ANCHORED : Z := 0x02.
Definition FLAG_RESONANT : Z := 0x04.
Definition FLAG_TRIAD : Z := 0x08.
Definition FLAG_K_FORMATION : Z := 0x10.

(** ** Ternary code *)

Definition ternary_char (digit : Z) : ascii :=
  if digit =? 0 then "0"%char
  else if digit =? 1 then "1"%char
  else "T"%char.

(** One pass of the loop body: append the character of the lowest digit,
    then floor-divide the value by three. *)
Definition ternary_step (st : Z * list ascii) : Z * list ascii :=
  let '(value, result) := st in
  let digit := value `mod` 3 in
  (value `div` 3, result ++ [ternary_char digit]).

Definition int_to_ternary (value : Z) : string :=
  let value :=
    if (value <? 0) || (value >? 242) then value `mod` 243 else value in
  let '(_, result) := Nat.iter 5 ternary_step (value, []) in
  string_of_list_ascii (rev result).

(** ** Tier of an index *)

(** The value bound to [tier] before the clamp. *)
Definition tier_unclamped (index : Z) : Z := (index * 9) `div` 121 + 1.

Definition index_to_tier (index : Z) : Z :=
  let tier := tier_unclamped index in
  Z.min tier 9.

(** ** Breath pattern *)

(** [int(seconds)]: truncation towards zero. *)
Definition int_of (seconds : Q) : Z := Qnum seconds `quot` Zpos (Qden seconds).

Definition encode_phase (seconds : Q) : Z :=
  let s := int_of seconds in
  if s <=? 1 then 0
  else if s <=? 2 then 1
  else if s <=? 3 then 2
  else 3.

Definition encode_breath_pattern (pattern : Q * Q * Q * Q) : Z :=
  let '(p0, p1, p2, p3) := pattern in
  let encoded := 0 in
  let encoded := Z.lor encoded (encode_phase p0) in
  let encoded := Z.lor encoded (encode_phase p1 ≪ 2) in
  let encoded := Z.lor encoded (encode_phase p2 ≪ 4) in
  let encoded := Z.lor encoded (encode_phase p3 ≪ 6) in
  encoded.

(** ** [struct.pack] with a little-endian, standard-size format *)

Inductive fmt_code : Set :=
  | Fmt_s (n : nat)   (* [ns]: a byte string in a field of [n] bytes *)
  | Fmt_B             (* unsigned char, 1 byte *)
  | Fmt_H             (* unsigned short, 2 bytes *)
  | Fmt_I.            (* unsigned int, 4 bytes *)

Inductive pack_arg : Type :=
  | ArgBytes (b : bytes)
  | ArgInt (v : Z).

Fixpoint le_bytes (size : nat) (v : Z) : bytes :=
  match size with
  | O => []
  | S size' => v `mod` 256 :: le_bytes size' (v `div` 256)
  end.

(** An integer outside the range of its field raises [struct.error]. *)
Definition pack_uint (size : nat) (v : Z) : result bytes :=
  if (0 <=? v) && (v <? 2 ^ (8 * Z.of_nat size))
  then Ok (le_bytes size v)
  else Raise StructError.

(** A byte string is cut to the width of its field, or filled with null
    bytes up to it. *)
Definition pack_s (n : nat) (b : bytes) : bytes := take n (b ++ replicate n 0).

Fixpoint struct_pack (fmt : list fmt_code) (args : list pack_arg) : result bytes :=
  match fmt, args with
  | [], [] => Ok []
  | Fmt_s n :: fmt', ArgBytes b :: args' =>
      rest ← struct_pack fmt' args'; Ok (pack_s n b ++ rest)
  | Fmt_B :: fmt', ArgInt v :: args' =>
      field ← pack_uint 1 v; rest ← struct_pack fmt' args'; Ok (field ++ rest)
  | Fmt_H :: fmt', ArgInt v :: args' =>
      field ← pack_uint 2 v; rest ← struct_pack fmt' args'; Ok (field ++ rest)
  | Fmt_I :: fmt', ArgInt v :: args' =>
      field ← pack_uint 4 v; rest ← struct_pack fmt' args'; Ok (field ++ rest)
  | _, _ => Raise StructError
  end.

(** [s.encode('ascii')]: a character above 127 raises. *)
Fixpoint encode_ascii (s : string) : result bytes :=
  match s with
  | EmptyString => Ok []
  | String c s' =>
      let code := Z.of_N (N_of_ascii c) in
      if code <? 128
      then rest ← encode_ascii s'; Ok (code :: rest)
      else Raise UnicodeEncodeError
  end.

Definition NUL : string := String "000"%char EmptyString.

(** ** Records, header and blob *)

(** The flag computation of [generate_sigil]. *)
Definition sigil_flags (index : Z) : Z :=
  let flags := FLAG_ACTIVE in
  let flags :=
    if bool_decide (index ∈ [0; 60; 120]) then Z.lor flags FLAG_ANCHORED
    else flags in
  let flags :=
    if (40 <=? index) && (index <=? 50) then Z.lor flags FLAG_TRIAD
    else flags in
  let flags :=
    if (90 <=? index) && (index <=? 100) then Z.lor flags FLAG_K_FORMATION
    else flags in
  flags.

Definition sigil_format : list fmt_code := [Fmt_s 6; Fmt_B; Fmt_H; Fmt_B; Fmt_B].

Definition generate_sigil (index : Z) : result bytes :=
  let code := int_to_ternary index in
  code_bytes ← encode_ascii (code +:+ NUL);
  let region_id := index in
  let tier := index_to_tier index in
  frequency ← subscript SOLFEGGIO tier;
  pattern ← subscript BREATH_PATTERNS tier;
  let breath := encode_breath_pattern pattern in
  let flags := sigil_flags index in
  struct_pack sigil_format
    [ArgBytes code_bytes; ArgInt region_id; ArgInt frequency;
     ArgInt breath; ArgInt flags].

Definition MAGIC : Z := 0x5347494C.
Definition VERSION : Z := 1.
Definition COUNT : Z := 121.

Definition generate_header : result bytes :=
  let checksum := 0 in
  struct_pack [Fmt_I; Fmt_B; Fmt_B; Fmt_H]
    [ArgInt MAGIC; ArgInt VERSION; ArgInt COUNT; ArgInt checksum].

(** The loop of [main] over the indices, accumulating [sigils_data]. *)
Fixpoint sigils_loop (indices : list Z) (sigils_data : bytes) : result bytes :=
  match indices with
  | [] => Ok sigils_data
  | i :: indices' =>
      sigil_data ← generate_sigil i;
      sigils_loop indices' (sigils_data ++ sigil_data)
  end.

(** The value of [total_data] in [main]: the bytes written to the image. *)
Definition main_total_data : result bytes :=
  header ← generate_header;
  sigils_data ← sigils_loop (seqZ 0 121) [];
  Ok (header ++ sigils_data).

(** Reading an unsigned little-endian integer back from its bytes. *)
Definition le_decode (b : bytes) : Z := foldr (fun x acc => x + 256 * acc) 0 b.

(** ** Definitions used in the statements *)

(** Reading a code back: the value of a digit character and of a
    string of them, most significant digit first. *)
Definition ternary_digit (c : ascii) : Z :=
  if Ascii.eqb c "0" then 0 else if Ascii.eqb c "1" then 1 else 2.

Fixpoint ternary_value_from (acc : Z) (s : string) : Z :=
  match s with
  | EmptyString => acc
  | String c s' => ternary_value_from (3 * acc + ternary_digit c) s'
  end.

Definition ternary_value (s : string) : Z := ternary_value_from 0 s.

Definition ternary_alphabet (c : ascii) : Prop :=
  c = "0"%char \/ c = "1"%char \/ c = "T"%char.

(** The wraparound applied on entry. *)
Definition wrap243 (value : Z) : Z :=
  if (value <? 0) || (value >? 242) then value `mod` 243 else value.

(** First and last index of a tier. *)
Definition tier_first (t : Z) : Z := (121 * (t - 1) + 8) / 9.
Definition tier_last (t : Z) : Z := (121 * t - 1) / 9.

Definition ascii_code (c : ascii) : Z := Z.of_N (N_of_ascii c).

(** The six bytes of the code field: the five characters and the null. *)
Definition code_field (value : Z) : bytes :=
  (ascii_code <$> list_ascii_of_string (int_to_ternary value)) ++ [0].

(** The record of an index, with the error case mapped to no bytes. *)
Definition record_of (index : Z) : bytes :=
  match generate_sigil index with
  | Ok data => data
  | Raise _ => []
  end.

(** ** The C array written by [main] *)

Definition newline : ascii := "010"%char.

(** One upper-case hexadecimal digit. *)
Definition hex_digit (d : Z) : ascii :=
  default "0"%char (String.get (Z.to_nat d) "0123456789ABCDEF").

(** [f"{byte:02X}"] for an element of a [bytes] object, which lies in
    0..255: two upper-case hexadecimal digits. *)
Definition format_02X (byte : Z) : string :=
  String (hex_digit (byte `div` 16))
    (String (hex_digit (byte `mod` 16)) EmptyString).

(** What one pass of the loop over [enumerate(total_data)] writes. *)
Definition write_entry (i byte : Z) : string :=
  (if i `mod` 16 =? 0 then "    " else "") +:+
  ("0x" +:+ format_02X byte +:+ ",") +:+
  (if i `mod` 16 =? 15 then String newline EmptyString else " ").

(** The text written by the whole loop, the counter starting at [i]. *)
Fixpoint write_entries (i : Z) (data : bytes) : string :=
  match data with
  | [] => EmptyString
  | byte :: data' => write_entry i byte +:+ write_entries (i + 1) data'
  end.

Definition array_body (total_data : bytes) : string :=
  write_entries 0 total_data.

(** Reading the array text back: blanks and line ends are skipped, and
    an entry [0xHL,] gives the byte [16 * H + L]. *)
Definition hex_value (c : ascii) : Z :=
  let code := Z.of_N (N_of_ascii c) in
  if code <? 58 then code - 48 else code - 55.

Fixpoint parse_entries (s : string) : list Z :=
  match s with
  | EmptyString => []
  | String c s1 =>
      if Ascii.eqb c " " || Ascii.eqb c newline then parse_entries s1
      else
        match s1 with
        | String x (String h (String l (String comma s5))) =>
            if Ascii.eqb c "0" && Ascii.eqb x "x" && Ascii.eqb comma ","
            then (16 * hex_value h + hex_value l) :: parse_entries s5
            else []
        | _ => []
        end
  end.

(** The tier summary at the end of [main]:
    [sum(1 for i in range(121) if index_to_tier(i) == tier)]. *)
Definition tier_count (tier : Z) : Z :=
  foldl Z.add 0
    ((fun _ => 1) <$> filter (fun i => index_to_tier i = tier) (seqZ 0 121)).

(** Reading a breath byte the way the docstring of
    [encode_breath_pattern] explains it: bucket 0 is 1 s, 1 is 2 s, 2 is
    3 s and 3 is 4 s. *)
Definition decode_breath_pattern (encoded : Z) : Z * Z * Z * Z :=
  (Z.land encoded 3 + 1,
   Z.land (encoded ≫ 2) 3 + 1,
   Z.land (encoded ≫ 4) 3 + 1,
   Z.land (encoded ≫ 6) 3 + 1).

(** Reading ASCII bytes back into a string. *)
Definition decode_ascii (b : bytes) : string :=
  string_of_list_ascii ((fun x => ascii_of_N (Z.to_N x)) <$> b).

Definition is_byte (x : Z) : Prop := 0 <= x <= 255.

#[global] Instance is_byte_dec x : Decision (is_byte x).
Proof. unfold is_byte. apply _. Defined.

(** The size of a packed format, as [struct.calcsize] gives it. *)
Definition fmt_size (c : fmt_code) : nat :=
  match c with
  | Fmt_s n => n
  | Fmt_B => 1
  | Fmt_H => 2
  | Fmt_I => 4
  end.

Definition calcsize (fmt : list fmt_code) : nat := sum_list (fmt_size <$> fmt).

(** A [bytes] argument holds bytes; an integer argument is unconstrained. *)
Definition valid_arg (a : pack_arg) : Prop :=
  match a with
  | ArgBytes b => Forall is_byte b
  | ArgInt _ => True
  end.

(** ** Evaluation on sample inputs *)

Example ternary_7 : int_to_ternary 7 = "000T1"%string.
Proof. reflexivity. Qed.

Example tier_60 : index_to_tier 60 = 5.
Proof. reflexivity. Qed.

Example breath_box : encode_breath_pattern (2, 2, 2, 2)%Q = 85.
Proof. reflexivity. Qed.

Example solfeggio_9 : subscript SOLFEGGIO 9 = Ok 963.
Proof. reflexivity. Qed.

Example breath_35 : encode_phase 3.5%Q = 2.
Proof. reflexivity. Qed.

Example array_body_17 :
  array_body (seqZ 0 9 ++ seqZ 248 8) =
  ("    0x00, 0x01, 0x02, 0x03, 0x04, 0x05, 0x06, 0x07, " +:+
   "0x08, 0xF8, 0xF9, 0xFA, 0xFB, 0xFC, 0xFD, 0xFE," +:+
   String newline "    0xFF, ")%string.
Proof. vm_compute. reflexivity. Qed.

Example sigil_45 :
  generate_sigil 45 = Ok [48; 49; 84; 48; 48; 0; 45; 161; 1; 17; 9].
Proof. vm_compute. reflexivity. Qed.

(** ** The ternary code *)

Lemma wrap243_range value : 0 <= wrap243 value <= 242.
Proof.
  unfold wrap243.
  destruct (value <? 0) eqn:Hneg; destruct (value >? 242) eqn:Hbig; simpl;
    pose proof (Z.mod_pos_bound value 243); lia.
Qed.

Lemma wrap243_small value : 0 <= value <= 242 -> wrap243 value = value.
Proof.
  intros Hv. unfold wrap243.
  replace (value <? 0) with false by (symmetry; apply Z.ltb_ge; lia).
  rewrite Z.gtb_ltb.
  replace (242 <? value) with false by (symmetry; apply Z.ltb_ge; lia).
  reflexivity.
Qed.

(** The five passes of the loop, unrolled. *)
Lemma int_to_ternary_unfold value :
  int_to_ternary value =
  let w := wrap243 value in
  String (ternary_char ((w / 3 / 3 / 3 / 3) mod 3))
    (String (ternary_char ((w / 3 / 3 / 3) mod 3))
      (String (ternary_char ((w / 3 / 3) mod 3))
        (String (ternary_char ((w / 3) mod 3))
          (String (ternary_char (w mod 3)) EmptyString)))).
Proof. reflexivity. Qed.

Lemma ternary_char_alphabet digit : ternary_alphabet (ternary_char digit).
Proof.
  unfold ternary_char, ternary_alphabet.
  destruct (digit =? 0); [auto |]. destruct (digit =? 1); auto.
Qed.

Lemma ternary_digit_char d : 0 <= d < 3 -> ternary_digit (ternary_char d) = d.
Proof.
  intros Hd. assert (d = 0 \/ d = 1 \/ d = 2) as [-> | [-> | ->]] by lia;
    reflexivity.
Qed.

Lemma int_to_ternary_shape value :
  String.length (int_to_ternary value) = 5%nat /\
  Forall ternary_alphabet (list_ascii_of_string (int_to_ternary value)).
Proof.
  rewrite int_to_ternary_unfold. split; [reflexivity |].
  cbn. repeat (apply Forall_cons_2; [apply ternary_char_alphabet |]).
  apply Forall_nil_2.
Qed.

(** Decoding undoes the encoding on the 243 values of five digits. *)
Lemma ternary_value_int_to_ternary value :
  0 <= value <= 242 -> ternary_value (int_to_ternary value) = value.
Proof.
  intros Hv. rewrite int_to_ternary_unfold, (wrap243_small _ Hv).
  cbn -[Z.mul Z.add Z.div Z.modulo ternary_digit ternary_char].
  rewrite !ternary_digit_char by (apply Z.mod_pos_bound; lia).
  Z.to_euclidean_division_equations. lia.
Qed.

Lemma int_to_ternary_inj x y :
  0 <= x <= 242 -> 0 <= y <= 242 ->
  int_to_ternary x = int_to_ternary y -> x = y.
Proof.
  intros Hx Hy Heq.
  rewrite <- (ternary_value_int_to_ternary x Hx),
          <- (ternary_value_int_to_ternary y Hy).
  now rewrite Heq.
Qed.

(** Claim C6: for every index in [0,120] the ternary code has exactly
    five characters, each of them one of '0', '1' and 'T'. *)
Theorem int_to_ternary_five_chars (index : Z) :
  0 <= index <= 120 ->
  String.length (int_to_ternary index) = 5%nat /\
  Forall ternary_alphabet (list_ascii_of_string (int_to_ternary index)).
Proof. intros _. apply int_to_ternary_shape. Qed.

Lemma int_to_ternary_five_chars_witness :
  0 <= 77 <= 120 /\
  String.length (int_to_ternary 77) = 5%nat /\
  Forall ternary_alphabet (list_ascii_of_string (int_to_ternary 77)).
Proof. split; [lia | apply (int_to_ternary_five_chars 77); lia]. Defined.

(** Claim C7: the code of 0 is "00000", the code of 242 is "TTTTT", and
    the encoding is injective on [0,242]: the 243 inputs give 243
    pairwise distinct strings of five characters. *)
Theorem int_to_ternary_injective (x y : Z) :
  0 <= x <= 242 -> 0 <= y <= 242 ->
  int_to_ternary 0 = "00000"%string /\
  int_to_ternary 242 = "TTTTT"%string /\
  (int_to_ternary x = int_to_ternary y <-> x = y) /\
  NoDup (int_to_ternary <$> seqZ 0 243) /\
  length (int_to_ternary <$> seqZ 0 243) = 243%nat /\
  Forall (fun s => String.length s = 5%nat) (int_to_ternary <$> seqZ 0 243).
Proof.
  intros Hx Hy. split; [reflexivity |]. split; [reflexivity |].
  split; [split; [now apply int_to_ternary_inj | now intros ->] |].
  split; [| split].
  - apply NoDup_fmap_2_strong; [| apply NoDup_seqZ].
    intros a b Ha Hb. apply elem_of_seqZ in Ha, Hb.
    apply int_to_ternary_inj; lia.
  - now rewrite length_fmap, length_seqZ.
  - apply Forall_fmap, Forall_forall. intros v _.
    apply int_to_ternary_shape.
Qed.

Lemma int_to_ternary_injective_witness :
  0 <= 5 <= 242 /\ 0 <= 7 <= 242 /\
  (int_to_ternary 5 = int_to_ternary 7 <-> 5 = 7) /\
  NoDup (int_to_ternary <$> seqZ 0 243).
Proof.
  pose proof (int_to_ternary_injective 5 7) as H.
  split; [lia |]. split; [lia |]. split; apply H; lia.
Defined.

(** ** Tiers *)

Lemma tier_unclamped_range index :
  0 <= index <= 120 -> 1 <= tier_unclamped index <= 9.
Proof.
  intros Hi. unfold tier_unclamped.
  Z.to_euclidean_division_equations. lia.
Qed.

Lemma index_to_tier_unclamped index :
  0 <= index <= 120 -> index_to_tier index = tier_unclamped index.
Proof.
  intros Hi. unfold index_to_tier. cbv zeta.
  pose proof (tier_unclamped_range index Hi). lia.
Qed.

Lemma index_to_tier_mono i j : i <= j -> index_to_tier i <= index_to_tier j.
Proof.
  intros Hij. unfold index_to_tier, tier_unclamped. cbv zeta.
  assert ((i * 9) / 121 <= (j * 9) / 121) by (apply Z.div_le_mono; lia).
  lia.
Qed.

Lemma index_to_tier_range index :
  0 <= index <= 120 -> 1 <= index_to_tier index <= 9.
Proof.
  intros Hi. rewrite index_to_tier_unclamped by assumption.
  now apply tier_unclamped_range.
Qed.

Lemma index_to_tier_bounds t k :
  1 <= t <= 9 -> 0 <= k <= 120 ->
  index_to_tier k = t <-> tier_first t <= k <= tier_last t.
Proof.
  intros Ht Hk. rewrite index_to_tier_unclamped by assumption.
  unfold tier_unclamped, tier_first, tier_last.
  Z.to_euclidean_division_equations. lia.
Qed.

Lemma tier_first_last t :
  1 <= t <= 9 -> 0 <= tier_first t <= tier_last t /\ tier_last t <= 120.
Proof.
  intros Ht. unfold tier_first, tier_last.
  Z.to_euclidean_division_equations. lia.
Qed.

(** Claim C4: on [0,120] the tier lies in [1,9], does not decrease with
    the index, is 1 at 0 and 9 at 120, and takes every value of 1..9;
    each tier is the set of indices of one non-empty interval, and the
    nine intervals follow each other without a gap. *)
Theorem index_to_tier_partition (i j : Z) :
  0 <= i -> i <= j -> j <= 120 ->
  1 <= index_to_tier i <= 9 /\
  index_to_tier i <= index_to_tier j /\
  index_to_tier 0 = 1 /\
  index_to_tier 120 = 9 /\
  (forall t, 1 <= t <= 9 -> exists k, 0 <= k <= 120 /\ index_to_tier k = t) /\
  (forall t k, 1 <= t <= 9 -> 0 <= k <= 120 ->
     index_to_tier k = t <-> tier_first t <= k <= tier_last t) /\
  (forall t, 1 <= t <= 9 -> tier_first t <= tier_last t) /\
  tier_first 1 = 0 /\
  (forall t, 1 <= t < 9 -> tier_first (t + 1) = tier_last t + 1) /\
  tier_last 9 = 120.
Proof.
  intros Hi Hij Hj.
  split; [apply index_to_tier_range; lia |].
  split; [now apply index_to_tier_mono |].
  split; [reflexivity |]. split; [reflexivity |].
  split.
  { intros t Ht. exists (tier_first t).
    pose proof (tier_first_last t Ht) as [Hfl Hl].
    split; [lia |]. apply index_to_tier_bounds; lia. }
  split; [apply index_to_tier_bounds |].
  split; [intros t Ht; apply (tier_first_last t Ht) |].
  split; [reflexivity |].
  split; [| reflexivity].
  intros t Ht. unfold tier_first, tier_last.
  Z.to_euclidean_division_equations. lia.
Qed.

Lemma index_to_tier_partition_witness :
  0 <= 13 /\ 13 <= 14 /\ 14 <= 120 /\
  1 <= index_to_tier 13 <= 9 /\ index_to_tier 13 <= index_to_tier 14.
Proof.
  pose proof (index_to_tier_partition 13 14) as H.
  split; [lia |]. split; [lia |]. split; [lia |]. split; apply H; lia.
Defined.

(** Counterexample to claim C5: at index 120 the formula without the
    clamp gives 9, which does not exceed 9. *)
Lemma tier_unclamped_120_not_above_9 : ~ (9 < tier_unclamped 120).
Proof. vm_compute. discriminate. Qed.

(** Claim C5, amended: on [0,120] the formula without the clamp already
    lies in [1,9] (it is exactly 9 at index 120), so the clamp leaves the
    tier of every index of the table unchanged; it first acts at index
    121, where the formula gives 10. *)
Theorem index_to_tier_clamp_idle (index : Z) :
  0 <= index <= 120 ->
  1 <= tier_unclamped index <= 9 /\
  index_to_tier index = tier_unclamped index /\
  tier_unclamped 120 = 9 /\
  tier_unclamped 121 = 10 /\
  index_to_tier 121 = 9.
Proof.
  intros Hi. split; [now apply tier_unclamped_range |].
  split; [now apply index_to_tier_unclamped |].
  repeat split; reflexivity.
Qed.

Lemma index_to_tier_clamp_idle_witness :
  0 <= 120 <= 120 /\
  1 <= tier_unclamped 120 <= 9 /\ index_to_tier 120 = tier_unclamped 120.
Proof.
  pose proof (index_to_tier_clamp_idle 120) as H.
  split; [lia |]. split; apply H; lia.
Defined.

(** ** Breath pattern *)

(** On a non-negative duration the truncation is the floor. *)
Lemma int_of_floor seconds : (0 <= seconds)%Q -> int_of seconds = Qfloor seconds.
Proof.
  destruct seconds as [n d]. unfold Qle, int_of, Qfloor. simpl.
  intros Hn. apply Z.quot_div_nonneg; lia.
Qed.

Lemma int_of_inject_Z z : int_of (inject_Z z) = z.
Proof. unfold int_of, inject_Z. simpl. apply Z.quot_1_r. Qed.

Lemma encode_phase_cases seconds :
  encode_phase seconds = 0 \/ encode_phase seconds = 1 \/
  encode_phase seconds = 2 \/ encode_phase seconds = 3.
Proof.
  unfold encode_phase. cbv zeta.
  destruct (int_of seconds <=? 1); [auto |].
  destruct (int_of seconds <=? 2); [auto |].
  destruct (int_of seconds <=? 3); auto.
Qed.

Lemma encode_phase_bucket seconds :
  (int_of seconds <= 1 -> encode_phase seconds = 0) /\
  (int_of seconds = 2 -> encode_phase seconds = 1) /\
  (int_of seconds = 3 -> encode_phase seconds = 2) /\
  (4 <= int_of seconds -> encode_phase seconds = 3).
Proof.
  unfold encode_phase. cbv zeta.
  destruct (Z.leb_spec (int_of seconds) 1);
    destruct (Z.leb_spec (int_of seconds) 2);
    destruct (Z.leb_spec (int_of seconds) 3);
    repeat split; intros; lia.
Qed.

Lemma encode_breath_pattern_fields p0 p1 p2 p3 :
  let encoded := encode_breath_pattern (p0, p1, p2, p3) in
  0 <= encoded <= 255 /\
  Z.land encoded 3 = encode_phase p0 /\
  Z.land (encoded ≫ 2) 3 = encode_phase p1 /\
  Z.land (encoded ≫ 4) 3 = encode_phase p2 /\
  Z.land (encoded ≫ 6) 3 = encode_phase p3.
Proof.
  unfold encode_breath_pattern. cbv zeta.
  destruct (encode_phase_cases p0) as [-> | [-> | [-> | ->]]];
    destruct (encode_phase_cases p1) as [-> | [-> | [-> | ->]]];
    destruct (encode_phase_cases p2) as [-> | [-> | [-> | ->]]];
    destruct (encode_phase_cases p3) as [-> | [-> | [-> | ->]]];
    vm_compute; intuition discriminate.
Qed.

(** Claim C8: a phase is truncated to whole seconds and put in bucket 0
    when that is at most 1, bucket 1 when it is 2, bucket 2 when it is 3
    and bucket 3 otherwise; 2.0 s gives 1, 3.0 s gives 2, 0.5 s gives 0
    and 5 s gives 3; the byte holds the inhale bucket in bits 0-1, hold-in
    in bits 2-3, exhale in bits 4-5 and hold-out in bits 6-7. *)
Theorem encode_breath_pattern_quantization (seconds p0 p1 p2 p3 : Q) :
  ((0 <= seconds)%Q -> int_of seconds = Qfloor seconds) /\
  ((seconds <= 0)%Q -> int_of seconds = Qceiling seconds) /\
  (int_of seconds <= 1 -> encode_phase seconds = 0) /\
  (int_of seconds = 2 -> encode_phase seconds = 1) /\
  (int_of seconds = 3 -> encode_phase seconds = 2) /\
  (4 <= int_of seconds -> encode_phase seconds = 3) /\
  encode_phase 2.0%Q = 1 /\
  encode_phase 3.0%Q = 2 /\
  encode_phase 0.5%Q = 0 /\
  encode_phase 5%Q = 3 /\
  (let encoded := encode_breath_pattern (p0, p1, p2, p3) in
   0 <= encoded <= 255 /\
   Z.land encoded 3 = encode_phase p0 /\
   Z.land (encoded ≫ 2) 3 = encode_phase p1 /\
   Z.land (encoded ≫ 4) 3 = encode_phase p2 /\
   Z.land (encoded ≫ 6) 3 = encode_phase p3).
Proof.
  split; [apply int_of_floor |].
  split.
  { destruct seconds as [n d]. unfold Qle, int_of, Qceiling, Qfloor, Qopp.
    simpl. intros Hn.
    rewrite <- (Z.opp_involutive n) at 1. rewrite Z.quot_opp_l by lia.
    rewrite Z.quot_div_nonneg by lia. reflexivity. }
  pose proof (encode_phase_bucket seconds) as (H0 & H1 & H2 & H3).
  repeat (split; [assumption || reflexivity |]).
  apply encode_breath_pattern_fields.
Qed.

Lemma encode_breath_pattern_quantization_witness :
  (0 <= 3.5)%Q /\ int_of 3.5%Q = Qfloor 3.5%Q /\
  int_of 3.5%Q = 3 /\ encode_phase 3.5%Q = 2 /\
  Z.land (encode_breath_pattern (3.5, 1.5, 3.5, 1.5)%Q ≫ 4) 3 = encode_phase 3.5%Q.
Proof.
  pose proof (encode_breath_pattern_quantization 3.5 3.5 1.5 3.5 1.5)%Q
    as (Hfloor & _ & _ & _ & H3 & _ & _ & _ & _ & _ & _ & _ & _ & Hexhale & _).
  split; [discriminate |]. split; [apply Hfloor; discriminate |].
  split; [reflexivity |]. split; [apply H3; reflexivity | exact Hexhale].
Defined.

(** ** Flags *)

Lemma testbit_true_lt_5 c n :
  0 <= c < 32 -> Z.testbit c n = true -> 0 <= n < 5.
Proof.
  intros Hc Hbit.
  destruct (Z.lt_ge_cases n 0) as [Hneg | Hpos].
  { rewrite Z.testbit_neg_r in Hbit by assumption. discriminate. }
  destruct (Z.lt_ge_cases n 5) as [Hlt | Hge]; [lia |].
  rewrite <- (Z.mod_small c (2 ^ 5)) in Hbit by (simpl; lia).
  rewrite Z.mod_pow2_bits_high in Hbit by lia. discriminate.
Qed.

(** Case analysis on the three tests of the flag computation. *)
Ltac flag_cases index :=
  destruct (bool_decide (index ∈ [0; 60; 120])) eqn:?;
  destruct ((40 <=? index) && (index <=? 50)) eqn:?;
  destruct ((90 <=? index) && (index <=? 100)) eqn:?.

(** The eight conceivable outcomes of the three tests. *)
Lemma sigil_flags_value index :
  sigil_flags index =
    1 + (if bool_decide (index ∈ [0; 60; 120]) then 2 else 0)
      + (if (40 <=? index) && (index <=? 50) then 8 else 0)
      + (if (90 <=? index) && (index <=? 100) then 16 else 0).
Proof.
  unfold sigil_flags. cbv zeta. flag_cases index; reflexivity.
Qed.

Lemma anchored_spec index :
  bool_decide (index ∈ [0; 60; 120]) = true <->
  index = 0 \/ index = 60 \/ index = 120.
Proof.
  rewrite bool_decide_eq_true, !elem_of_cons, elem_of_nil. tauto.
Qed.

Lemma sigil_flags_range index : 1 <= sigil_flags index <= 0x1B.
Proof.
  rewrite sigil_flags_value. flag_cases index; lia.
Qed.

Lemma sigil_flags_bits_all index :
  let flags := sigil_flags index in
  Z.testbit flags 0 = true /\
  (Z.testbit flags 1 = true <-> index = 0 \/ index = 60 \/ index = 120) /\
  (Z.testbit flags 3 = true <-> 40 <= index <= 50) /\
  (Z.testbit flags 4 = true <-> 90 <= index <= 100) /\
  Z.testbit flags 2 = false /\
  (forall n, Z.testbit flags n = true -> n = 0 \/ n = 1 \/ n = 3 \/ n = 4).
Proof.
  cbv zeta.
  assert (Hother : forall n, Z.testbit (sigil_flags index) n = true ->
            Z.testbit (sigil_flags index) 2 = false -> 
            n = 0 \/ n = 1 \/ n = 3 \/ n = 4).
  { intros n Hbit H2.
    assert (0 <= n < 5) as Hn
      by (eapply testbit_true_lt_5; [| exact Hbit];
          pose proof (sigil_flags_range index); lia).
    assert (n = 2 -> False) by (intros ->; congruence). lia. }
  assert (H2 : Z.testbit (sigil_flags index) 2 = false).
  { rewrite sigil_flags_value. flag_cases index; reflexivity. }
  pose proof (anchored_spec index) as Hanch.
  rewrite sigil_flags_value in *.
  flag_cases index;
    (split; [reflexivity |]);
    (split; [simpl; intuition (try discriminate; try lia) |]);
    (split; [simpl; split; [intros; lia | intros; try reflexivity; lia] |]);
    (split; [simpl; split; [intros; lia | intros; try reflexivity; lia] |]);
    (split; [reflexivity | intros n Hn; now apply Hother]).
Qed.

(** ** Records *)

Lemma pack_uint_in_range size v :
  0 <= v < 2 ^ (8 * Z.of_nat size) -> pack_uint size v = Ok (le_bytes size v).
Proof.
  intros Hv. unfold pack_uint.
  destruct (Z.leb_spec 0 v); [| lia].
  destruct (Z.ltb_spec v (2 ^ (8 * Z.of_nat size))); [reflexivity | lia].
Qed.

Lemma pack_uint_out_of_range size v :
  v < 0 \/ 2 ^ (8 * Z.of_nat size) <= v -> pack_uint size v = Raise StructError.
Proof.
  intros Hv. unfold pack_uint.
  destruct (Z.leb_spec 0 v); [| reflexivity].
  destruct (Z.ltb_spec v (2 ^ (8 * Z.of_nat size))); [lia | reflexivity].
Qed.

(** The packer on the record format, when every integer fits. *)
Section Packer.

Variables (code_bytes : bytes) (region_id frequency breath flags : Z).
Hypothesis region_id_fits : 0 <= region_id <= 255.
Hypothesis frequency_fits : 0 <= frequency <= 65535.
Hypothesis breath_fits : 0 <= breath <= 255.
Hypothesis flags_fit : 0 <= flags <= 255.

Lemma struct_pack_sigil :
  struct_pack sigil_format
    [ArgBytes code_bytes; ArgInt region_id; ArgInt frequency;
     ArgInt breath; ArgInt flags] =
  Ok (pack_s 6 code_bytes ++ [region_id] ++
      [frequency mod 256; frequency / 256] ++ [breath] ++ [flags]).
Proof.
  unfold sigil_format. cbn [struct_pack].
  rewrite (pack_uint_in_range 1 region_id), (pack_uint_in_range 2 frequency),
    (pack_uint_in_range 1 breath), (pack_uint_in_range 1 flags)
    by (change (2 ^ (8 * Z.of_nat 1)) with 256;
        change (2 ^ (8 * Z.of_nat 2)) with 65536; lia).
  cbn [le_bytes mbind result_bind app].
  assert (0 <= frequency / 256 < 256)
    by (Z.to_euclidean_division_equations; lia).
  rewrite (Z.mod_small region_id), (Z.mod_small breath), (Z.mod_small flags),
    (Z.mod_small (frequency / 256)) by lia.
  reflexivity.
Qed.

(** A region identifier that does not fit its byte makes the packer fail. *)
Lemma struct_pack_sigil_region_overflow (index : Z) :
  index < 0 \/ 255 < index ->
  struct_pack sigil_format
    [ArgBytes code_bytes; ArgInt index; ArgInt frequency;
     ArgInt breath; ArgInt flags] = Raise StructError.
Proof.
  intros Hi. unfold sigil_format. cbn [struct_pack].
  rewrite (pack_uint_out_of_range 1 index)
    by (change (2 ^ (8 * Z.of_nat 1)) with 256; lia).
  reflexivity.
Qed.

End Packer.

Lemma encode_ascii_String c s rest :
  ascii_code c < 128 -> encode_ascii s = Ok rest ->
  encode_ascii (String c s) = Ok (ascii_code c :: rest).
Proof.
  intros Hc Hs. cbn [encode_ascii]. fold (ascii_code c). rewrite Hs.
  destruct (Z.ltb_spec (ascii_code c) 128); [reflexivity | lia].
Qed.

Lemma ternary_char_code digit : ascii_code (ternary_char digit) < 128.
Proof.
  unfold ternary_char.
  destruct (digit =? 0); [reflexivity |]. destruct (digit =? 1); reflexivity.
Qed.

Lemma code_field_length value : length (code_field value) = 6%nat.
Proof.
  unfold code_field. rewrite int_to_ternary_unfold. reflexivity.
Qed.

Lemma encode_ascii_code value :
  encode_ascii (int_to_ternary value +:+ NUL) = Ok (code_field value).
Proof.
  unfold code_field. rewrite int_to_ternary_unfold. cbv zeta.
  cbn [String.app list_ascii_of_string fmap list_fmap app NUL].
  repeat (apply encode_ascii_String; [apply ternary_char_code |]).
  reflexivity.
Qed.

Lemma pack_s_code_field value : pack_s 6 (code_field value) = code_field value.
Proof.
  unfold pack_s, code_field. rewrite int_to_ternary_unfold. reflexivity.
Qed.

Lemma tier_enumerate index :
  0 <= index <= 120 ->
  index_to_tier index ∈ [1; 2; 3; 4; 5; 6; 7; 8; 9].
Proof.
  intros Hi. pose proof (index_to_tier_range index Hi).
  rewrite !elem_of_cons. lia.
Qed.

Lemma tables_total tier :
  tier ∈ [1; 2; 3; 4; 5; 6; 7; 8; 9] ->
  exists frequency pattern,
    subscript SOLFEGGIO tier = Ok frequency /\
    subscript BREATH_PATTERNS tier = Ok pattern /\
    174 <= frequency <= 963 /\
    0 <= encode_breath_pattern pattern <= 255.
Proof.
  rewrite !elem_of_cons, elem_of_nil.
  intros [-> | [-> | [-> | [-> | [-> | [-> | [-> | [-> | [-> | []]]]]]]]]];
    eexists; eexists;
    (split; [vm_compute; reflexivity |]);
    (split; [vm_compute; reflexivity |]);
    vm_compute; intuition discriminate.
Qed.

(** The record of an index of the table, field by field. *)
Lemma generate_sigil_layout index :
  0 <= index <= 120 ->
  exists frequency pattern,
    subscript SOLFEGGIO (index_to_tier index) = Ok frequency /\
    subscript BREATH_PATTERNS (index_to_tier index) = Ok pattern /\
    174 <= frequency <= 963 /\
    0 <= encode_breath_pattern pattern <= 255 /\
    generate_sigil index =
      Ok (code_field index ++ [index] ++
          [frequency mod 256; frequency / 256] ++
          [encode_breath_pattern pattern] ++ [sigil_flags index]).
Proof.
  intros Hi.
  destruct (tables_total _ (tier_enumerate index Hi))
    as (frequency & pattern & Hfreq & Hpat & Hf & Hb).
  exists frequency, pattern. repeat (split; [assumption || lia |]).
  unfold generate_sigil. rewrite encode_ascii_code. cbv zeta.
  cbn [mbind result_bind]. rewrite Hfreq, Hpat. cbn [mbind result_bind].
  pose proof (sigil_flags_range index).
  rewrite struct_pack_sigil by lia.
  now rewrite pack_s_code_field.
Qed.

(** Claim C2: the record of every index in [0,120] is the 6-byte code
    field (five ternary characters and a null), the region byte equal to
    the index, the frequency in two little-endian bytes, the breath byte
    and the flags byte, in this order.  The claim counts 10 bytes; the
    five fields add up to 11, and 11 is the length the packer returns,
    already at index 0. *)
Theorem generate_sigil_eleven_bytes :
  generate_sigil 0 = Ok [48; 48; 48; 48; 48; 0; 0; 174; 0; 119; 3] /\
  Forall (fun index =>
    exists frequency pattern data,
      subscript SOLFEGGIO (index_to_tier index) = Ok frequency /\
      subscript BREATH_PATTERNS (index_to_tier index) = Ok pattern /\
      generate_sigil index = Ok data /\
      data = code_field index ++ [index] ++
             [frequency mod 256; frequency / 256] ++
             [encode_breath_pattern pattern] ++ [sigil_flags index] /\
      length (code_field index) = 6%nat /\
      length data = 11%nat /\
      length data <> 10%nat)
    (seqZ 0 121).
Proof.
  split; [vm_compute; reflexivity |].
  apply Forall_forall. intros index Hin. apply elem_of_seqZ in Hin.
  destruct (generate_sigil_layout index) as (frequency & pattern & Hf & Hp & _ & _ & Hdata);
    [lia |].
  exists frequency, pattern. eexists.
  split; [exact Hf |]. split; [exact Hp |]. split; [exact Hdata |].
  split; [reflexivity |]. split; [apply code_field_length |].
  rewrite length_app, code_field_length. cbn [length app Nat.add].
  split; [reflexivity | discriminate].
Qed.

(** Claim C3: in the flags byte of every index in [0,120], bit 0 is set;
    bit 1 is set exactly for the indices 0, 60 and 120; bit 3 exactly for
    40..50; bit 4 exactly for 90..100; bit 2 is clear, and no bit other
    than 0, 1, 3 and 4 is ever set. *)
Theorem sigil_flags_bits (index : Z) :
  0 <= index <= 120 ->
  (exists data, generate_sigil index = Ok data /\
                last data = Some (sigil_flags index)) /\
  Z.testbit (sigil_flags index) 0 = true /\
  (Z.testbit (sigil_flags index) 1 = true <->
     index = 0 \/ index = 60 \/ index = 120) /\
  (Z.testbit (sigil_flags index) 3 = true <-> 40 <= index <= 50) /\
  (Z.testbit (sigil_flags index) 4 = true <-> 90 <= index <= 100) /\
  Z.testbit (sigil_flags index) 2 = false /\
  (forall n, Z.testbit (sigil_flags index) n = true ->
             n = 0 \/ n = 1 \/ n = 3 \/ n = 4).
Proof.
  intros Hi. split; [| apply sigil_flags_bits_all].
  destruct (generate_sigil_layout index Hi)
    as (frequency & pattern & _ & _ & _ & _ & Hdata).
  eexists. split; [exact Hdata |].
  rewrite !app_assoc. apply last_snoc.
Qed.

Lemma sigil_flags_bits_witness :
  0 <= 60 <= 120 /\
  Z.testbit (sigil_flags 60) 0 = true /\
  (Z.testbit (sigil_flags 60) 1 = true <-> 60 = 0 \/ 60 = 60 \/ 60 = 120) /\
  (Z.testbit (sigil_flags 60) 3 = true <-> 40 <= 60 <= 50).
Proof.
  destruct (sigil_flags_bits 60) as (_ & H0 & H1 & H3 & _); [lia |].
  split; [lia |]. split; [exact H0 |]. split; [exact H1 | exact H3].
Defined.

(** Claim C9: in the record of index 0 the region byte is 0, the
    frequency field reads 174 and the flags byte is 0x03, that is the
    ACTIVE and ANCHORED bits and no other. *)
Theorem generate_sigil_index_0 :
  exists data,
    generate_sigil 0 = Ok data /\
    data !! 6%nat = Some 0 /\
    le_decode (take 2 (drop 7 data)) = 174 /\
    data !! 10%nat = Some 0x03 /\
    last data = Some (sigil_flags 0) /\
    sigil_flags 0 = Z.lor FLAG_ACTIVE FLAG_ANCHORED /\
    (forall n, Z.testbit (sigil_flags 0) n = true <-> n = 0 \/ n = 1).
Proof.
  eexists. split; [vm_compute; reflexivity |].
  repeat (split; [reflexivity |]).
  intros n. split.
  - intros Hbit.
    pose proof (testbit_true_lt_5 3 n ltac:(lia) Hbit) as Hn.
    assert (n = 0 \/ n = 1 \/ n = 2 \/ n = 3 \/ n = 4)
      as [-> | [-> | [-> | [-> | ->]]]] by lia;
      solve [auto | discriminate Hbit].
  - intros [-> | ->]; reflexivity.
Qed.

(** Claim C10: for every index in [0,120] each value handed to the
    packer fits its field, so the record is always produced: the code and
    its null are six ASCII bytes, which a 6-byte field neither cuts nor
    pads; the index fits a byte; the frequency is at most 963 and fits 16
    bits; the breath byte and the flags byte lie in [0,255], the latter
    being at most 0x1B, the OR of the four flags in use. *)
Theorem generate_sigil_total (index : Z) :
  0 <= index <= 120 ->
  (exists code_bytes,
     encode_ascii (int_to_ternary index +:+ NUL) = Ok code_bytes /\
     length code_bytes = 6%nat /\
     Forall (fun b => 0 <= b < 128) code_bytes /\
     pack_s 6 code_bytes = code_bytes) /\
  0 <= index <= 255 /\
  (exists frequency,
     subscript SOLFEGGIO (index_to_tier index) = Ok frequency /\
     0 <= frequency <= 963 /\ 963 < 2 ^ 16) /\
  (exists pattern,
     subscript BREATH_PATTERNS (index_to_tier index) = Ok pattern /\
     0 <= encode_breath_pattern pattern <= 255) /\
  (forall pattern, 0 <= encode_breath_pattern pattern <= 255) /\
  0 <= sigil_flags index <= 255 /\
  sigil_flags index <= 0x1B /\
  Z.lor (Z.lor (Z.lor FLAG_ACTIVE FLAG_ANCHORED) FLAG_TRIAD) FLAG_K_FORMATION
    = 0x1B /\
  is_Ok (generate_sigil index).
Proof.
  intros Hi.
  destruct (generate_sigil_layout index Hi)
    as (frequency & pattern & Hf & Hp & Hfr & Hbr & Hdata).
  pose proof (sigil_flags_range index) as Hflags.
  split.
  { exists (code_field index).
    split; [apply encode_ascii_code |]. split; [apply code_field_length |].
    split; [| apply pack_s_code_field].
    unfold code_field. rewrite int_to_ternary_unfold. cbv zeta.
    cbn [list_ascii_of_string fmap list_fmap app].
    repeat (apply Forall_cons_2;
      [ split; [apply N2Z.is_nonneg | apply ternary_char_code] |]).
    apply Forall_cons_2; [lia | apply Forall_nil_2]. }
  split; [lia |].
  split; [exists frequency; repeat split; (assumption || lia) |].
  split; [exists pattern; split; assumption |].
  split; [intros [[[p0 p1] p2] p3]; apply encode_breath_pattern_fields |].
  split; [lia |]. split; [lia |]. split; [reflexivity |].
  eexists. exact Hdata.
Qed.

Lemma generate_sigil_total_witness :
  0 <= 100 <= 120 /\ is_Ok (generate_sigil 100) /\ sigil_flags 100 <= 0x1B.
Proof.
  pose proof (generate_sigil_total 100) as H.
  split; [lia |]. split; apply H; lia.
Defined.

(** ** The blob *)

(** The loop appends the records of its indices, in their order. *)
Lemma sigils_loop_concat indices records sigils_data :
  Forall2 (fun index record => generate_sigil index = Ok record)
    indices records ->
  sigils_loop indices sigils_data = Ok (sigils_data ++ concat records).
Proof.
  intros Hall. revert sigils_data.
  induction Hall as [| index record indices records Hrec _ IH];
    intros sigils_data; cbn [sigils_loop concat].
  - now rewrite app_nil_r.
  - rewrite Hrec. cbn [mbind result_bind]. rewrite IH.
    now rewrite <- app_assoc.
Qed.

Lemma record_of_table :
  Forall2 (fun index record => generate_sigil index = Ok record)
    (seqZ 0 121) (record_of <$> seqZ 0 121).
Proof.
  apply Forall2_fmap_r, Forall2_same_length_lookup_2; [reflexivity |].
  intros i index index' Hi Hi'. assert (index' = index) as -> by congruence.
  apply lookup_seqZ in Hi as [-> Hlt].
  destruct (generate_sigil_layout (0 + Z.of_nat i) ltac:(lia))
    as (? & ? & _ & _ & _ & _ & Hdata).
  unfold record_of, compose. now rewrite Hdata.
Qed.

(** Claim C1: the blob is the header followed by the 121 records in
    ascending index order; its first four bytes read 0x5347494C in
    little-endian order, byte 4 is 1, byte 5 is 121 and bytes 6 and 7 are
    zero.  The claim counts 1218 bytes; with records of 11 bytes the blob
    has 8 + 121 * 11 = 1339. *)
Theorem main_total_data_1339_bytes :
  exists header records blob,
    generate_header = Ok header /\
    length header = 8%nat /\
    Forall2 (fun index record => generate_sigil index = Ok record)
      (seqZ 0 121) records /\
    Forall (fun record => length record = 11%nat) records /\
    blob = header ++ concat records /\
    main_total_data = Ok blob /\
    length blob = 1339%nat /\
    length blob <> 1218%nat /\
    le_decode (take 4 blob) = 0x5347494C /\
    blob !! 4%nat = Some 1 /\
    blob !! 5%nat = Some 121 /\
    take 2 (drop 6 blob) = [0; 0].
Proof.
  exists [0x4C; 0x49; 0x47; 0x53; 1; 121; 0; 0], (record_of <$> seqZ 0 121).
  eexists.
  split; [vm_compute; reflexivity |]. split; [reflexivity |].
  split; [apply record_of_table |].
  split.
  { apply Forall_fmap, Forall_forall. intros index Hin.
    apply elem_of_seqZ in Hin.
    destruct (generate_sigil_layout index ltac:(lia))
      as (? & ? & _ & _ & _ & _ & Hdata).
    unfold compose, record_of. rewrite Hdata.
    now rewrite length_app, code_field_length. }
  split; [reflexivity |].
  split.
  { unfold main_total_data.
    rewrite (sigils_loop_concat _ _ [] record_of_table).
    vm_compute. reflexivity. }
  split; [vm_compute; reflexivity |].
  split; [vm_compute; discriminate |].
  repeat split; vm_compute; reflexivity.
Qed.

(** * Further properties of the generator *)

(** ** The ternary code beyond the table *)

Lemma wrap243_mod value : wrap243 value = value mod 243.
Proof.
  unfold wrap243.
  destruct (value <? 0) eqn:Hneg; destruct (value >? 242) eqn:Hbig; simpl;
    try reflexivity.
  symmetry. apply Z.mod_small. lia.
Qed.

Lemma int_to_ternary_mod value :
  int_to_ternary value = int_to_ternary (value mod 243).
Proof.
  rewrite !int_to_ternary_unfold. cbv zeta.
  rewrite !wrap243_mod, Z.mod_mod by lia. reflexivity.
Qed.

(** X1: two integers have the same code exactly when they are congruent
    modulo 243; outside [0,242] the code is that of the remainder. *)
Theorem int_to_ternary_congruence (x y : Z) :
  int_to_ternary x = int_to_ternary (x mod 243) /\
  (int_to_ternary x = int_to_ternary y <-> x mod 243 = y mod 243).
Proof.
  split; [apply int_to_ternary_mod |].
  split.
  - rewrite (int_to_ternary_mod x), (int_to_ternary_mod y).
    pose proof (Z.mod_pos_bound x 243). pose proof (Z.mod_pos_bound y 243).
    apply int_to_ternary_inj; lia.
  - intros Heq. now rewrite (int_to_ternary_mod x), (int_to_ternary_mod y), Heq.
Qed.

Lemma ternary_value_wrap value :
  ternary_value (int_to_ternary value) = value mod 243.
Proof.
  rewrite int_to_ternary_mod.
  apply ternary_value_int_to_ternary.
  pose proof (Z.mod_pos_bound value 243). lia.
Qed.

(** X2: read as a base-3 numeral with 'T' for the digit two, the code of
    any integer is its remainder modulo 243. *)
Theorem ternary_value_int_to_ternary_mod (value : Z) :
  ternary_value (int_to_ternary value) = value mod 243.
Proof. apply ternary_value_wrap. Qed.

Lemma ternary_char_compare a b :
  0 <= a < 3 -> 0 <= b < 3 ->
  Ascii.compare (ternary_char a) (ternary_char b) = (a ?= b).
Proof.
  intros Ha Hb.
  assert (a = 0 \/ a = 1 \/ a = 2) as [-> | [-> | ->]] by lia;
    assert (b = 0 \/ b = 1 \/ b = 2) as [-> | [-> | ->]] by lia;
    reflexivity.
Qed.

(** X3: on [0,242] the codes compare, as strings, the way their values
    compare as integers. *)
Theorem int_to_ternary_compare (x y : Z) :
  0 <= x <= 242 -> 0 <= y <= 242 ->
  String.compare (int_to_ternary x) (int_to_ternary y) = (x ?= y).
Proof.
  intros Hx Hy. rewrite !int_to_ternary_unfold. cbv zeta.
  rewrite !wrap243_small by assumption.
  cbn [String.compare].
  rewrite !ternary_char_compare by (apply Z.mod_pos_bound; lia).
  repeat match goal with
  | |- context [?a ?= ?b] =>
      lazymatch a with
      | _ mod 3 => destruct (Z.compare_spec a b)
      end
  end;
  symmetry; first [apply Z.compare_eq_iff | apply Z.compare_lt_iff | apply Z.compare_gt_iff];
  Z.to_euclidean_division_equations; lia.
Qed.

Lemma int_to_ternary_compare_witness :
  0 <= 8 <= 242 /\ 0 <= 9 <= 242 /\
  String.compare (int_to_ternary 8) (int_to_ternary 9) = (8 ?= 9).
Proof.
  split; [lia |]. split; [lia |]. apply (int_to_ternary_compare 8 9); lia.
Defined.

(** ** Tiers and records outside the table *)

Lemma index_to_tier_key index :
  index_to_tier index <= 9 /\
  (1 <= index_to_tier index <-> 0 <= index) /\
  (index_to_tier index = 9 <-> 108 <= index).
Proof.
  unfold index_to_tier, tier_unclamped. cbv zeta.
  repeat split; Z.to_euclidean_division_equations; lia.
Qed.

(** X4: the tier never exceeds 9; it is a key of the tables (at least 1)
    exactly for the non-negative indices, and it is 9 from index 108 on,
    however large the index. *)
Theorem index_to_tier_valid_key (index : Z) :
  index_to_tier index <= 9 /\
  (1 <= index_to_tier index <-> 0 <= index) /\
  (index_to_tier index = 9 <-> 108 <= index).
Proof. apply index_to_tier_key. Qed.

Lemma tier_enumerate_nonneg index :
  0 <= index -> index_to_tier index ∈ [1; 2; 3; 4; 5; 6; 7; 8; 9].
Proof.
  intros Hi. pose proof (index_to_tier_key index) as (H9 & H1 & _).
  rewrite !elem_of_cons. lia.
Qed.

Lemma SOLFEGGIO_missing tier :
  tier < 1 \/ 9 < tier -> subscript SOLFEGGIO tier = Raise KeyError.
Proof.
  intros Ht. unfold subscript, SOLFEGGIO.
  rewrite (not_elem_of_list_to_map_1 _ tier); [reflexivity |].
  cbn. rewrite !elem_of_cons, elem_of_nil. lia.
Qed.

(** The record of any index that fits a byte, field by field. *)
Lemma generate_sigil_layout_byte index :
  0 <= index <= 255 ->
  exists frequency pattern,
    subscript SOLFEGGIO (index_to_tier index) = Ok frequency /\
    subscript BREATH_PATTERNS (index_to_tier index) = Ok pattern /\
    174 <= frequency <= 963 /\
    0 <= encode_breath_pattern pattern <= 255 /\
    generate_sigil index =
      Ok (code_field index ++ [index] ++
          [frequency mod 256; frequency / 256] ++
          [encode_breath_pattern pattern] ++ [sigil_flags index]).
Proof.
  intros Hi.
  destruct (tables_total _ (tier_enumerate_nonneg index ltac:(lia)))
    as (frequency & pattern & Hfreq & Hpat & Hf & Hb).
  exists frequency, pattern. repeat (split; [assumption || lia |]).
  unfold generate_sigil. rewrite encode_ascii_code. cbv zeta.
  cbn [mbind result_bind]. rewrite Hfreq, Hpat. cbn [mbind result_bind].
  pose proof (sigil_flags_range index).
  rewrite struct_pack_sigil by lia.
  now rewrite pack_s_code_field.
Qed.

(** X5: a negative index has a tier below 1, which is no key of the
    frequency table: the record generator raises [KeyError]. *)
Theorem generate_sigil_negative (index : Z) :
  index < 0 -> generate_sigil index = Raise KeyError.
Proof.
  intros Hi. unfold generate_sigil. rewrite encode_ascii_code. cbv zeta.
  cbn [mbind result_bind]. rewrite SOLFEGGIO_missing; [reflexivity |].
  pose proof (index_to_tier_key index) as (_ & H1 & _). lia.
Qed.

Lemma generate_sigil_negative_witness :
  -1 < 0 /\ generate_sigil (-1) = Raise KeyError.
Proof. split; [lia | apply (generate_sigil_negative (-1)); lia]. Defined.

(** X6: an index above 255 does not fit the region byte: the packer
    raises [struct.error]. *)
Theorem generate_sigil_above_byte (index : Z) :
  255 < index -> generate_sigil index = Raise StructError.
Proof.
  intros Hi. unfold generate_sigil. rewrite encode_ascii_code. cbv zeta.
  cbn [mbind result_bind].
  destruct (tables_total _ (tier_enumerate_nonneg index ltac:(lia)))
    as (frequency & pattern & -> & -> & _ & _).
  cbn [mbind result_bind].
  apply struct_pack_sigil_region_overflow. lia.
Qed.

Lemma generate_sigil_above_byte_witness :
  255 < 256 /\ generate_sigil 256 = Raise StructError.
Proof. split; [lia | apply (generate_sigil_above_byte 256); lia]. Defined.

(** X7: the indices from 121 to 255, which the table does not use, still
    give a record: tier 9 (963 Hz, breath byte 0x88) and the ACTIVE flag
    alone; from 243 on the code field wraps around. *)
Theorem generate_sigil_beyond_table (index : Z) :
  121 <= index <= 255 ->
  generate_sigil index =
    Ok (code_field (index mod 243) ++ [index; 0xC3; 0x03; 0x88; 0x01]).
Proof.
  intros Hi.
  destruct (generate_sigil_layout_byte index ltac:(lia))
    as (frequency & pattern & Hfreq & Hpat & _ & _ & ->).
  assert (index_to_tier index = 9) as Htier
    by (apply index_to_tier_key; lia).
  rewrite Htier in Hfreq, Hpat.
  vm_compute in Hfreq, Hpat. injection Hfreq as <-. injection Hpat as <-.
  assert (sigil_flags index = 1) as ->.
  { rewrite sigil_flags_value.
    rewrite bool_decide_eq_false_2
      by (rewrite !elem_of_cons, elem_of_nil; lia).
    replace ((40 <=? index) && (index <=? 50)) with false by lia.
    replace ((90 <=? index) && (index <=? 100)) with false by lia.
    reflexivity. }
  unfold code_field. rewrite <- int_to_ternary_mod. reflexivity.
Qed.

Lemma generate_sigil_beyond_table_witness :
  121 <= 243 <= 255 /\
  generate_sigil 243 = Ok (code_field (243 mod 243) ++ [243; 0xC3; 0x03; 0x88; 0x01]).
Proof. split; [lia | apply (generate_sigil_beyond_table 243); lia]. Defined.

(** ** Reading a record back *)

Lemma decode_ascii_codes (l : list ascii) :
  decode_ascii (ascii_code <$> l) = string_of_list_ascii l.
Proof.
  unfold decode_ascii. f_equal. rewrite <- list_fmap_compose.
  rewrite <- (list_fmap_id l) at 2. apply list_fmap_ext.
  intros _ c _. unfold compose, ascii_code. cbn.
  now rewrite N2Z.id, ascii_N_embedding.
Qed.

Lemma take_5_code_field value rest :
  take 5 (code_field value ++ rest) =
  ascii_code <$> list_ascii_of_string (int_to_ternary value).
Proof.
  unfold code_field. rewrite int_to_ternary_unfold. reflexivity.
Qed.

Lemma drop_6_code_field value rest : drop 6 (code_field value ++ rest) = rest.
Proof.
  unfold code_field. rewrite int_to_ternary_unfold. reflexivity.
Qed.

Lemma lookup_5_code_field value rest :
  (code_field value ++ rest) !! 5%nat = Some 0.
Proof.
  unfold code_field. rewrite int_to_ternary_unfold. reflexivity.
Qed.

(** X8: the fields of a record give its inputs back: the code field
    reads as the index modulo 243 and ends with a null byte, the region
    byte is the index, and the two frequency bytes read, little-endian, as
    the frequency of the tier. *)
Theorem generate_sigil_read_back (index : Z) :
  0 <= index <= 255 ->
  exists data frequency,
    generate_sigil index = Ok data /\
    subscript SOLFEGGIO (index_to_tier index) = Ok frequency /\
    ternary_value (decode_ascii (take 5 data)) = index mod 243 /\
    data !! 5%nat = Some 0 /\
    data !! 6%nat = Some index /\
    le_decode (take 2 (drop 7 data)) = frequency.
Proof.
  intros Hi.
  destruct (generate_sigil_layout_byte index Hi)
    as (frequency & pattern & Hfreq & _ & Hf & _ & Hdata).
  eexists. exists frequency. split; [exact Hdata |]. split; [exact Hfreq |].
  split.
  { rewrite take_5_code_field, decode_ascii_codes.
    rewrite string_of_list_ascii_of_string. apply ternary_value_wrap. }
  split; [apply lookup_5_code_field |].
  split.
  { rewrite <- (Nat.add_0_r 6), <- lookup_drop, drop_6_code_field.
    reflexivity. }
  change 7%nat with (6 + 1)%nat. rewrite <- drop_drop, drop_6_code_field.
  cbn. Z.to_euclidean_division_equations. lia.
Qed.

Lemma generate_sigil_read_back_witness :
  0 <= 200 <= 255 /\
  exists data frequency,
    generate_sigil 200 = Ok data /\
    subscript SOLFEGGIO (index_to_tier 200) = Ok frequency /\
    ternary_value (decode_ascii (take 5 data)) = 200 mod 243 /\
    data !! 5%nat = Some 0 /\
    data !! 6%nat = Some 200 /\
    le_decode (take 2 (drop 7 data)) = frequency.
Proof. split; [lia | apply (generate_sigil_read_back 200); lia]. Defined.

(** X9: two indices that fit a byte never give the same record. *)
Theorem generate_sigil_inj (x y : Z) :
  0 <= x <= 255 -> 0 <= y <= 255 ->
  generate_sigil x = generate_sigil y -> x = y.
Proof.
  intros Hx Hy Heq.
  destruct (generate_sigil_layout_byte x Hx) as (fx & px & _ & _ & _ & _ & Hdx).
  destruct (generate_sigil_layout_byte y Hy) as (fy & py & _ & _ & _ & _ & Hdy).
  rewrite Hdx, Hdy in Heq.
  apply (f_equal (fun r => match r with Ok d => drop 6 d | Raise _ => [] end))
    in Heq.
  rewrite !drop_6_code_field in Heq. now injection Heq.
Qed.

Lemma generate_sigil_inj_witness :
  0 <= 0 <= 255 /\ 0 <= 243 <= 255 /\
  (generate_sigil 0 = generate_sigil 243 -> 0 = 243) /\
  int_to_ternary 0 = int_to_ternary 243.
Proof.
  split; [lia |]. split; [lia |].
  split; [apply (generate_sigil_inj 0 243); lia | reflexivity].
Defined.

(** ** The packer *)

Lemma le_bytes_length size v : length (le_bytes size v) = size.
Proof.
  revert v. induction size as [| size IH]; intros v; cbn [le_bytes length];
    [reflexivity | now rewrite IH].
Qed.

Lemma le_bytes_valid size v : Forall is_byte (le_bytes size v).
Proof.
  revert v. induction size as [| size IH]; intros v; cbn [le_bytes];
    constructor; [| apply IH].
  unfold is_byte. pose proof (Z.mod_pos_bound v 256). lia.
Qed.

Lemma le_decode_le_bytes size v :
  le_decode (le_bytes size v) = v mod 2 ^ (8 * Z.of_nat size).
Proof.
  revert v. induction size as [| size IH]; intros v.
  - cbn. now rewrite Z.mod_1_r.
  - cbn [le_bytes]. unfold le_decode in *. cbn [foldr]. rewrite IH.
    replace (2 ^ (8 * Z.of_nat (S size))) with (256 * 2 ^ (8 * Z.of_nat size)).
    + rewrite Z.rem_mul_r by lia. reflexivity.
    + rewrite Nat2Z.inj_succ, <- Z.add_1_r, Z.mul_add_distr_l, Z.pow_add_r by lia.
      change (2 ^ (8 * 1)) with 256. lia.
Qed.

Lemma bind_Ok_inv {A B} (m : result A) (f : A -> result B) b :
  m ≫= f = Ok b -> exists a, m = Ok a /\ f a = Ok b.
Proof. destruct m as [a | e]; [eauto | discriminate]. Qed.

Lemma pack_uint_Ok_inv size v data :
  pack_uint size v = Ok data ->
  0 <= v < 2 ^ (8 * Z.of_nat size) /\ data = le_bytes size v.
Proof.
  unfold pack_uint.
  destruct (Z.leb_spec 0 v); destruct (Z.ltb_spec v (2 ^ (8 * Z.of_nat size)));
    cbn; intros Heq; try discriminate.
  injection Heq as <-. split; [lia | reflexivity].
Qed.

(** An integer field packs exactly when the integer is non-negative and
    below 256 to the power of the width; it then reads back,
    little-endian, as the integer packed. *)
Lemma pack_uint_round_trip (size : nat) (v : Z) :
  (is_Ok (pack_uint size v) <-> 0 <= v < 2 ^ (8 * Z.of_nat size)) /\
  (forall data, pack_uint size v = Ok data ->
     le_decode data = v /\ length data = size /\ Forall is_byte data).
Proof.
  split.
  - split.
    + intros [data Hdata]. now apply pack_uint_Ok_inv in Hdata.
    + intros Hv. eexists. now apply pack_uint_in_range.
  - intros data Hdata. apply pack_uint_Ok_inv in Hdata as [Hv ->].
    split; [| split; [apply le_bytes_length | apply le_bytes_valid]].
    rewrite le_decode_le_bytes. apply Z.mod_small. exact Hv.
Qed.

Lemma pack_s_length n b : length (pack_s n b) = n.
Proof.
  unfold pack_s. rewrite length_take, length_app, length_replicate. lia.
Qed.

Lemma pack_s_valid n b : Forall is_byte b -> Forall is_byte (pack_s n b).
Proof.
  intros Hb. unfold pack_s. apply Forall_take, Forall_app. split; [exact Hb |].
  apply Forall_replicate. unfold is_byte. lia.
Qed.

(** The case of an integer field in the induction below. *)
Ltac integer_field IH Hargs Hpack :=
  let field := fresh "field" in
  let rest := fresh "rest" in
  let Hfield := fresh "Hfield" in
  let Hrest := fresh "Hrest" in
  let Heq := fresh "Heq" in
  let Hlen := fresh "Hlen" in
  let Hbytes := fresh "Hbytes" in
  apply bind_Ok_inv in Hpack as (field & Hfield & Hpack);
  apply bind_Ok_inv in Hpack as (rest & Hrest & Heq); injection Heq as <-;
  apply pack_uint_Ok_inv in Hfield as [_ ->];
  destruct (IH _ _ Hargs Hrest) as [Hlen Hbytes];
  split;
  [ rewrite length_app, le_bytes_length, Hlen; reflexivity
  | apply Forall_app; split; [apply le_bytes_valid | exact Hbytes] ].

(** Whatever the arguments, a successful pack has the size of its format
    and consists of bytes. *)
Lemma struct_pack_calcsize (fmt : list fmt_code) (args : list pack_arg)
    (data : bytes) :
  Forall valid_arg args ->
  struct_pack fmt args = Ok data ->
  length data = calcsize fmt /\ Forall is_byte data.
Proof.
  revert args data. induction fmt as [| c fmt IH]; intros args data Hargs Hpack.
  - destruct args; [| discriminate]. injection Hpack as <-.
    split; [reflexivity | constructor].
  - destruct args as [| a args]; [destruct c; discriminate |].
    apply Forall_cons_1 in Hargs as [Ha Hargs].
    destruct c, a as [b | v]; try discriminate; cbn [struct_pack] in Hpack;
      [| integer_field IH Hargs Hpack ..].
    apply bind_Ok_inv in Hpack as (rest & Hrest & Heq). injection Heq as <-.
    destruct (IH _ _ Hargs Hrest) as [Hlen Hbytes].
    split.
    + rewrite length_app, pack_s_length, Hlen. reflexivity.
    + apply Forall_app. split; [now apply pack_s_valid | exact Hbytes].
Qed.

Lemma encode_ascii_valid s b : encode_ascii s = Ok b -> Forall is_byte b.
Proof.
  revert b. induction s as [| c s IH]; intros b; cbn [encode_ascii].
  - intros Heq. injection Heq as <-. constructor.
  - destruct (Z.ltb_spec (Z.of_N (N_of_ascii c)) 128); [| discriminate].
    intros Hb. apply bind_Ok_inv in Hb as (rest & Hrest & Heq).
    injection Heq as <-. constructor; [| now apply IH].
    unfold is_byte. pose proof (N2Z.is_nonneg (N_of_ascii c)). lia.
Qed.

(** X10: whatever the index, a record that is produced has 11 bytes, the
    size of the format [<6sBHBB], each of them in 0..255. *)
Theorem generate_sigil_record_size (index : Z) (data : bytes) :
  generate_sigil index = Ok data ->
  length data = 11%nat /\ Forall is_byte data.
Proof.
  unfold generate_sigil. cbv zeta. intros Hdata.
  apply bind_Ok_inv in Hdata as (code_bytes & Hcode & Hdata).
  apply bind_Ok_inv in Hdata as (frequency & _ & Hdata).
  apply bind_Ok_inv in Hdata as (pattern & _ & Hdata).
  apply (struct_pack_calcsize sigil_format) in Hdata; [exact Hdata |].
  repeat constructor. now apply (encode_ascii_valid _ _ Hcode).
Qed.

Lemma generate_sigil_record_size_witness :
  generate_sigil 255 = Ok [48; 48; 49; 49; 48; 0; 255; 195; 3; 136; 1] /\
  length [48; 48; 49; 49; 48; 0; 255; 195; 3; 136; 1] = 11%nat /\
  Forall is_byte [48; 48; 49; 49; 48; 0; 255; 195; 3; 136; 1].
Proof.
  assert (generate_sigil 255 = Ok [48; 48; 49; 49; 48; 0; 255; 195; 3; 136; 1])
    as H by (vm_compute; reflexivity).
  split; [exact H | exact (generate_sigil_record_size 255 _ H)].
Defined.

(** ** Addressing the blob *)

Lemma main_total_data_concat :
  main_total_data =
    Ok ([0x4C; 0x49; 0x47; 0x53; 1; 121; 0; 0] ++
        concat (record_of <$> seqZ 0 121)).
Proof.
  unfold main_total_data.
  rewrite (sigils_loop_concat _ _ [] record_of_table).
  vm_compute. reflexivity.
Qed.

(** In a concatenation of chunks of one size, chunk [i] starts at [i]
    times the size. *)
Lemma concat_chunk {A} (n : nat) (chunks : list (list A)) (i : nat) chunk :
  Forall (fun c => length c = n) chunks ->
  chunks !! i = Some chunk ->
  take n (drop (i * n) (concat chunks)) = chunk.
Proof.
  intros Hall. revert i.
  induction Hall as [| c chunks Hc _ IH]; intros i Hi; [discriminate |].
  destruct i as [| i]; cbn [concat].
  - injection Hi as <-. cbn [Nat.mul drop]. now apply take_app_length'.
  - cbn [Nat.mul]. rewrite drop_app_add' by (symmetry; exact Hc).
    now apply IH.
Qed.

Lemma record_of_length index :
  0 <= index <= 120 -> length (record_of index) = 11%nat.
Proof.
  intros Hi.
  destruct (generate_sigil_layout index Hi) as (? & ? & _ & _ & _ & _ & Hdata).
  unfold record_of. rewrite Hdata.
  now rewrite length_app, code_field_length.
Qed.

(** X11: in the blob the record of index [i] occupies the 11 bytes from
    offset [8 + 11 * i] on, so that the region byte at offset
    [8 + 11 * i + 6] is [i] itself. *)
Theorem main_total_data_record_at (index : Z) :
  0 <= index <= 120 ->
  exists blob record,
    main_total_data = Ok blob /\
    generate_sigil index = Ok record /\
    take 11 (drop (8 + Z.to_nat index * 11) blob) = record /\
    blob !! (8 + Z.to_nat index * 11 + 6)%nat = Some index.
Proof.
  intros Hi. eexists. exists (record_of index).
  split; [apply main_total_data_concat |].
  destruct (generate_sigil_layout index Hi) as (f & p & _ & _ & _ & _ & Hdata).
  assert (Hchunk :
    take 11 (drop (8 + Z.to_nat index * 11)
      ([0x4C; 0x49; 0x47; 0x53; 1; 121; 0; 0] ++
       concat (record_of <$> seqZ 0 121))) = record_of index).
  { rewrite drop_app_add' by reflexivity.
    apply concat_chunk.
    - apply Forall_fmap, Forall_forall. intros i Hin.
      apply elem_of_seqZ in Hin. apply record_of_length. lia.
    - rewrite list_lookup_fmap, lookup_seqZ_lt by lia.
      cbn. f_equal. f_equal. lia. }
  split; [unfold record_of; now rewrite Hdata |].
  split; [exact Hchunk |].
  rewrite <- (lookup_drop _ (8 + Z.to_nat index * 11) 6).
  rewrite <- (lookup_take_lt _ 11) by lia.
  rewrite Hchunk. unfold record_of. rewrite Hdata.
  rewrite <- (Nat.add_0_r 6), <- lookup_drop, drop_6_code_field. reflexivity.
Qed.

Lemma main_total_data_record_at_witness :
  0 <= 45 <= 120 /\
  exists blob record,
    main_total_data = Ok blob /\
    generate_sigil 45 = Ok record /\
    take 11 (drop (8 + Z.to_nat 45 * 11) blob) = record /\
    blob !! (8 + Z.to_nat 45 * 11 + 6)%nat = Some 45.
Proof. split; [lia | apply (main_total_data_record_at 45); lia]. Defined.

(** ** What the breath byte keeps *)

Lemma int_of_mono s t : (s <= t)%Q -> int_of s <= int_of t.
Proof.
  destruct s as [a b], t as [c d]. unfold Qle, int_of. cbn [Qnum Qden].
  intros Hle.
  pose proof (Pos2Z.is_pos b). pose proof (Pos2Z.is_pos d).
  rewrite <- (Z.quot_mul_cancel_r a (Z.pos b) (Z.pos d)) by lia.
  rewrite <- (Z.quot_mul_cancel_r c (Z.pos d) (Z.pos b)) by lia.
  rewrite (Z.mul_comm (Z.pos d) (Z.pos b)).
  apply Z.quot_le_mono; lia.
Qed.

Lemma encode_phase_int_of s :
  encode_phase s = encode_phase (inject_Z (int_of s)).
Proof. unfold encode_phase. now rewrite int_of_inject_Z. Qed.

Lemma encode_phase_mono s t : (s <= t)%Q -> encode_phase s <= encode_phase t.
Proof.
  intros Hle. apply int_of_mono in Hle. unfold encode_phase. cbv zeta.
  destruct (Z.leb_spec (int_of s) 1); destruct (Z.leb_spec (int_of s) 2);
    destruct (Z.leb_spec (int_of s) 3); destruct (Z.leb_spec (int_of t) 1);
    destruct (Z.leb_spec (int_of t) 2); destruct (Z.leb_spec (int_of t) 3);
    lia.
Qed.

(** X12: a longer phase never gets a smaller bucket, and the byte only
    depends on the whole seconds of the four phases: the halves of the
    table are lost, so that tiers 2 and 3, and tiers 4 and 8, are stored
    with the same breath byte. *)
Theorem encode_breath_pattern_lossy (s t p0 p1 p2 p3 : Q) :
  ((s <= t)%Q -> encode_phase s <= encode_phase t) /\
  encode_breath_pattern (p0, p1, p2, p3) =
    encode_breath_pattern
      (inject_Z (int_of p0), inject_Z (int_of p1),
       inject_Z (int_of p2), inject_Z (int_of p3)) /\
  encode_breath_pattern <$> BREATH_PATTERNS !! 2 = Some 0x22 /\
  encode_breath_pattern <$> BREATH_PATTERNS !! 3 = Some 0x22 /\
  encode_breath_pattern <$> BREATH_PATTERNS !! 4 = Some 0x11 /\
  encode_breath_pattern <$> BREATH_PATTERNS !! 8 = Some 0x11.
Proof.
  split; [apply encode_phase_mono |].
  split; [| repeat split; vm_compute; reflexivity].
  unfold encode_breath_pattern.
  now rewrite <- !encode_phase_int_of.
Qed.

Lemma encode_breath_pattern_lossy_witness :
  (1.5 <= 2.5)%Q /\ encode_phase 1.5 <= encode_phase 2.5 /\
  encode_breath_pattern (3.5, 1.5, 3.5, 1.5)%Q =
    encode_breath_pattern (3, 1, 3, 1)%Q.
Proof.
  destruct (encode_breath_pattern_lossy 1.5 2.5 3.5 1.5 3.5 1.5)
    as (Hmono & Hint & _).
  split; [discriminate |]. split; [apply Hmono; discriminate | exact Hint].
Defined.

(** X13: a pattern of whole seconds between 1 and 4 is stored exactly:
    reading the byte as its docstring says (bucket plus one second) gives
    the four durations back. *)
Theorem decode_encode_breath_pattern (z0 z1 z2 z3 : Z) :
  1 <= z0 <= 4 -> 1 <= z1 <= 4 -> 1 <= z2 <= 4 -> 1 <= z3 <= 4 ->
  decode_breath_pattern
    (encode_breath_pattern
       (inject_Z z0, inject_Z z1, inject_Z z2, inject_Z z3)) =
  (z0, z1, z2, z3).
Proof.
  intros H0 H1 H2 H3. unfold decode_breath_pattern.
  destruct (encode_breath_pattern_fields
              (inject_Z z0) (inject_Z z1) (inject_Z z2) (inject_Z z3))
    as (_ & -> & -> & -> & ->).
  assert (Hphase : forall z, 1 <= z <= 4 -> encode_phase (inject_Z z) + 1 = z).
  { intros z Hz. unfold encode_phase. rewrite int_of_inject_Z. cbv zeta.
    destruct (Z.leb_spec z 1); destruct (Z.leb_spec z 2);
      destruct (Z.leb_spec z 3); lia. }
  now rewrite !Hphase by assumption.
Qed.

Lemma decode_encode_breath_pattern_witness :
  1 <= 4 <= 4 /\ 1 <= 2 <= 4 /\
  decode_breath_pattern
    (encode_breath_pattern (inject_Z 4, inject_Z 2, inject_Z 4, inject_Z 2)) =
  (4, 2, 4, 2).
Proof.
  split; [lia |]. split; [lia |].
  apply (decode_encode_breath_pattern 4 2 4 2); lia.
Defined.

(** ** Flag values *)

(** X14: the three index ranges of the flags do not meet, so a flags
    byte is 0x01, 0x03, 0x09 or 0x11, whatever the index: ACTIVE alone or
    with exactly one of ANCHORED, TRIAD and K_FORMATION. *)
Theorem sigil_flags_exclusive (index : Z) :
  sigil_flags index ∈ [0x01; 0x03; 0x09; 0x11] /\
  (sigil_flags index = 0x03 <-> index = 0 \/ index = 60 \/ index = 120) /\
  (sigil_flags index = 0x09 <-> 40 <= index <= 50) /\
  (sigil_flags index = 0x11 <-> 90 <= index <= 100).
Proof.
  pose proof (anchored_spec index) as Hanch.
  rewrite !elem_of_cons, elem_of_nil. rewrite sigil_flags_value.
  flag_cases index; repeat split; intros; try lia;
    try (assert (index = 0 \/ index = 60 \/ index = 120)
           by (apply Hanch; reflexivity); lia);
    try (apply Hanch in H; discriminate).
Qed.

(** ** The tier summary *)

(** X15: the summary printed by [main] counts, for each tier, the
    indices from its first to its last: 14 for the tiers 1, 3, 5 and 7
    and 13 for the others. *)
Theorem tier_count_sizes (tier : Z) :
  1 <= tier <= 9 ->
  tier_count tier = tier_last tier - tier_first tier + 1 /\
  tier_count tier = (if Z.odd tier && (tier <? 9) then 14 else 13).
Proof.
  intros Ht.
  assert (tier ∈ [1; 2; 3; 4; 5; 6; 7; 8; 9]) as Hin
    by (rewrite !elem_of_cons; lia).
  rewrite !elem_of_cons, elem_of_nil in Hin.
  destruct Hin as [-> | [-> | [-> | [-> | [-> | [-> | [-> | [-> | [-> | []]]]]]]]]];
    vm_compute; split; reflexivity.
Qed.

Lemma tier_count_sizes_witness :
  1 <= 9 <= 9 /\
  tier_count 9 = tier_last 9 - tier_first 9 + 1 /\
  tier_count 9 = (if Z.odd 9 && (9 <? 9) then 14 else 13).
Proof. split; [lia | apply (tier_count_sizes 9); lia]. Defined.

(** ** The C array *)

Lemma hex_value_digit d : 0 <= d < 16 -> hex_value (hex_digit d) = d.
Proof.
  intros Hd. rewrite <- (Z2Nat.id d) by lia.
  assert (Z.to_nat d < 16)%nat as Hn by lia.
  revert Hn. generalize (Z.to_nat d) as n. intros n Hn.
  do 16 (destruct n as [| n]; [reflexivity |]). lia.
Qed.

(** Reading one written entry, whatever text follows it. *)
Lemma parse_write_entry i byte rest :
  is_byte byte ->
  parse_entries (write_entry i byte +:+ rest) = byte :: parse_entries rest.
Proof.
  intros Hb. unfold is_byte in Hb. unfold write_entry, format_02X.
  destruct (i `mod` 16 =? 0); destruct (i `mod` 16 =? 15);
    cbv [String.append];
    cbn -[Z.mul Z.add hex_value hex_digit Z.div Z.modulo];
    rewrite !hex_value_digit by (Z.to_euclidean_division_equations; lia);
    f_equal; Z.to_euclidean_division_equations; lia.
Qed.

Lemma parse_write_entries i data :
  Forall is_byte data -> parse_entries (write_entries i data) = data.
Proof.
  intros Hall. revert i. induction Hall as [| byte data Hb _ IH]; intros i;
    cbn [write_entries]; [reflexivity |].
  rewrite parse_write_entry by assumption. now rewrite IH.
Qed.

(** X16: the entries of the C array text, read back as hexadecimal
    numbers, are the bytes written, in their order. *)
Theorem parse_array_body (total_data : bytes) :
  Forall is_byte total_data ->
  parse_entries (array_body total_data) = total_data.
Proof. apply parse_write_entries. Qed.

Lemma parse_array_body_witness :
  Forall is_byte [76; 73; 71; 83; 1; 121; 0; 0] /\
  parse_entries (array_body [76; 73; 71; 83; 1; 121; 0; 0]) =
    [76; 73; 71; 83; 1; 121; 0; 0].
Proof.
  assert (Forall is_byte [76; 73; 71; 83; 1; 121; 0; 0]) as H
    by (repeat constructor; unfold is_byte; lia).
  split; [exact H | exact (parse_array_body _ H)].
Defined.

Lemma length_append_string (s t : string) :
  String.length (s +:+ t) = (String.length s + String.length t)%nat.
Proof.
  induction s as [| c s IH]; [reflexivity |].
  change (String c s +:+ t) with (String c (s +:+ t)).
  cbn [String.length]. now rewrite IH.
Qed.

Lemma write_entry_length i byte :
  Z.of_nat (String.length (write_entry i byte)) =
  6 + (if i `mod` 16 =? 0 then 4 else 0).
Proof.
  unfold write_entry, format_02X.
  destruct (i `mod` 16 =? 0); destruct (i `mod` 16 =? 15); reflexivity.
Qed.

Lemma write_entries_length i data :
  0 <= i ->
  Z.of_nat (String.length (write_entries i data)) =
  6 * Z.of_nat (length data) +
  4 * ((i + Z.of_nat (length data) + 15) / 16 - (i + 15) / 16).
Proof.
  revert i. induction data as [| byte data IH]; intros i Hi.
  - cbn [write_entries length String.length]. rewrite Z.add_0_r. lia.
  - cbn [write_entries length]. rewrite length_append_string, Nat2Z.inj_add.
    rewrite write_entry_length, IH by lia. rewrite Nat2Z.inj_succ.
    destruct (Z.eqb_spec (i `mod` 16) 0);
      Z.to_euclidean_division_equations; lia.
Qed.

(** X17: the array text takes six characters for each byte and four more
    for the indent of each row of sixteen, the last row included when it
    is not full. *)
Theorem array_body_length (total_data : bytes) :
  Z.of_nat (String.length (array_body total_data)) =
  6 * Z.of_nat (length total_data) +
  4 * ((Z.of_nat (length total_data) + 15) / 16).
Proof.
  unfold array_body. rewrite write_entries_length by lia.
  rewrite Z.add_0_l. change ((0 + 15) / 16) with 0. lia.
Qed.

(** X18: the C array that [main] writes from the blob reads back as the
    blob: the header file and the binary image hold the same 1339
    bytes. *)
Theorem main_array_body_is_blob :
  exists blob,
    main_total_data = Ok blob /\
    Forall is_byte blob /\
    parse_entries (array_body blob) = blob /\
    length (parse_entries (array_body blob)) = 1339%nat.
Proof.
  eexists. split; [apply main_total_data_concat |].
  assert (Forall is_byte
            ([0x4C; 0x49; 0x47; 0x53; 1; 121; 0; 0] ++
             concat (record_of <$> seqZ 0 121))) as Hbytes
    by (apply (bool_decide_unpack _); vm_compute; exact I).
  split; [exact Hbytes |].
  unfold array_body. rewrite (parse_write_entries 0 _ Hbytes).
  split; [reflexivity | vm_compute; reflexivity].
Qed.
